(** * API Response Bingo: a shallow embedding of [api_bingo.py]

    The file models the class [APIBingo] of [src/api_bingo.py]: its table
    [error_patterns], the accumulator [found_patterns], and the methods
    [check_response], [get_score], [is_bingo] and [print_card], and the
    function [main].  Python values are a variant type, Python exceptions
    are an error monad, the two dictionaries a response can hold are
    [gmap]s, the accumulator is a [gset], standard output is the list of
    the texts printed. *)

From Stdlib Require Import ZArith Floats.SpecFloat.
From stdpp Require Import gmap strings list fin_maps pretty sorting.

#[local] Set Warnings "-register-all,-clear-no-such-hyp".
#[local] Open Scope Z_scope.

(** ** Python values *)

(** What a decoded JSON document holds: [None], [bool], [int], [float],
    [str], [list] and [dict] with string keys.  A float is kept as its
    IEEE-754 datum ([SpecFloat]); nothing below rounds. *)
Inductive value :=
  | VNone
  | VBool (b : bool)
  | VInt (z : Z)
  | VFloat (f : spec_float)
  | VStr (s : string)
  | VList (l : list value)
  | VDict (m : gmap string value).

(** The classes the program mentions or a value can be an instance of. *)
Inductive pytype :=
  | Tobject | Ttype | TNoneType | Tbool | Tint | Tfloat | Tstr | Tlist | Tdict.

(** An object stored in [error_patterns]: the program tests it with
    [isinstance(expected_type, type)], so it may be a class as well as a
    value. *)
Inductive pyobj :=
  | OType (t : pytype)
  | OValue (v : value).

(** ** Exceptions *)

Inductive exn :=
  | KeyError (k : string)
  | TypeError.

Inductive result (A : Type) :=
  | Ok (a : A)
  | Raise (e : exn).
Arguments Ok {A} a.
Arguments Raise {A} e.

#[global] Instance result_ret : MRet result := λ A a, Ok a.
#[global] Instance result_bind : MBind result := λ A B k m,
  match m with
  | Ok a => k a
  | Raise e => Raise e
  end.

(** ** Python's [==] on values *)

Module PyEq.

(** [(-1)^s * m], the signed mantissa of a finite float. *)
Definition signed (s : bool) (m : positive) : Z :=
  if s then Z.neg m else Z.pos m.

(** [a * 2^ea = b * 2^eb], decided over the integers. *)
Definition scaled_eq (a ea b eb : Z) : bool :=
  let e := Z.min ea eb in
  a * 2 ^ (ea - e) =? b * 2 ^ (eb - e).

(** [float.__eq__] on two floats: a NaN equals nothing, the two zeros are
    equal, the rest compares by value. *)
Definition float_eq (f g : spec_float) : bool :=
  match f, g with
  | S754_nan, _ | _, S754_nan => false
  | S754_infinity s, S754_infinity t => eqb s t
  | S754_infinity _, _ | _, S754_infinity _ => false
  | S754_zero _, S754_zero _ => true
  | S754_zero _, S754_finite _ _ _ | S754_finite _ _ _, S754_zero _ => false
  | S754_finite s m e, S754_finite s' m' e' =>
      scaled_eq (signed s m) e (signed s' m') e'
  end.

(** A float against an int: CPython compares the exact values. *)
Definition float_eq_int (f : spec_float) (z : Z) : bool :=
  match f with
  | S754_zero _ => z =? 0
  | S754_finite s m e => scaled_eq (signed s m) e z 0
  | S754_infinity _ | S754_nan => false
  end.

Inductive number :=
  | NInt (z : Z)
  | NFloat (f : spec_float).

(** [bool] is a subclass of [int]: [False] is [0] and [True] is [1]. *)
Definition as_number (v : value) : option number :=
  match v with
  | VBool b => Some (NInt (Z.b2z b))
  | VInt z => Some (NInt z)
  | VFloat f => Some (NFloat f)
  | _ => None
  end.

Definition number_eq (x y : number) : bool :=
  match x, y with
  | NInt a, NInt b => a =? b
  | NInt a, NFloat f | NFloat f, NInt a => float_eq_int f a
  | NFloat f, NFloat g => float_eq f g
  end.

Definition all_true (m : gmap string bool) : bool :=
  map_fold (λ _ b acc, b && acc) true m.

(** [a == b].  Numbers compare by value across [bool], [int] and [float];
    strings with strings; lists element by element; dicts key by key;
    anything else is unequal.  (The identity shortcut CPython takes inside
    containers changes the answer for a shared NaN object only; no object
    of [error_patterns] holds a float.) *)
Fixpoint py_eq (a b : value) {struct a} : bool :=
  match a, b with
  | VNone, VNone => true
  | VStr s, VStr t => bool_decide (s = t)
  | VList l, VList l' =>
      (fix go (xs ys : list value) {struct xs} : bool :=
         match xs, ys with
         | [], [] => true
         | x :: xs', y :: ys' => py_eq x y && go xs' ys'
         | _, _ => false
         end) l l'
  | VDict m, VDict m' =>
      all_true (merge (λ oa ob,
        match oa, ob with
        | Some x, Some y => Some (py_eq x y)
        | None, None => None
        | _, _ => Some false
        end) m m')
  | _, _ =>
      match as_number a, as_number b with
      | Some x, Some y => number_eq x y
      | _, _ => false
      end
  end.

(** [actual == expected] when [expected] may be a class: a value is never
    equal to a class object. *)
Definition obj_eq (actual : value) (expected : pyobj) : bool :=
  match expected with
  | OValue v => py_eq actual v
  | OType _ => false
  end.

End PyEq.
Export PyEq.

(** ** [isinstance] and [in] *)

Definition value_instance (v : value) (t : pytype) : bool :=
  match t, v with
  | Tobject, _ => true
  | TNoneType, VNone => true
  | Tbool, VBool _ => true
  | Tint, (VBool _ | VInt _) => true
  | Tfloat, VFloat _ => true
  | Tstr, VStr _ => true
  | Tlist, VList _ => true
  | Tdict, VDict _ => true
  | _, _ => false
  end.

Definition instance_of (o : pyobj) (t : pytype) : bool :=
  match o with
  | OValue v => value_instance v t
  | OType _ => match t with Tobject | Ttype => true | _ => false end
  end.

(** [isinstance(o, cls)]: [TypeError] unless [cls] is a class. *)
Definition isinstance (o cls : pyobj) : result bool :=
  match cls with
  | OType t => Ok (instance_of o t)
  | OValue _ => Raise TypeError
  end.

(** [key in d] and [d[key]] on a dict. *)
Definition dict_contains (key : string) (d : gmap string value) : bool :=
  bool_decide (key ∈ dom d).

Definition dict_getitem (d : gmap string value) (key : string) : result value :=
  match d !! key with
  | Some v => Ok v
  | None => Raise (KeyError key)
  end.

(** [key in v] for a string [key] and any value [v]: a substring test on a
    string, membership on a list, a key test on a dict, [TypeError] on
    [None] and on numbers. *)
Definition py_in (key : string) (v : value) : result bool :=
  match v with
  | VStr s => Ok (if String.index 0 key s is Some _ then true else false)
  | VList l => Ok (existsb (λ x, py_eq x (VStr key)) l)
  | VDict m => Ok (dict_contains key m)
  | VNone | VBool _ | VInt _ | VFloat _ => Raise TypeError
  end.

(** ** The class [APIBingo] *)

Record APIBingo := {
  error_patterns : list (string * pyobj);
  found_patterns : gset string;
}.

(** [__init__]: the dict literal, in insertion order, and an empty set. *)
Definition __init__ : APIBingo := {|
  error_patterns := [
    ("error", OValue (VStr "message"));
    ("error_message", OValue (VStr "string"));
    ("err", OValue (VStr "msg"));
    ("message", OValue (VStr "error"));
    ("status", OValue (VStr "error"));
    ("result", OValue (VStr "failure"));
    ("success", OValue (VBool false));
    ("code", OValue (VInt 500));
    ("data", OValue VNone);
    ("details", OValue (VStr ""));
    ("trace", OValue (VStr "stack"));
    ("fault", OValue (VDict {[ "faultstring" := VStr "string" ]}))
  ];
  found_patterns := ∅;
|}.

(** The body of the [for] loop of [check_response], for one item of
    [error_patterns]; [found] is the list built so far. *)
Definition check_item (response_data : gmap string value) (found : list string)
    (pattern : string) (expected_type : pyobj) : result (list string) :=
  if dict_contains pattern response_data then
    actual_value ← dict_getitem response_data pattern;
    if instance_of expected_type Ttype then
      b ← isinstance (OValue actual_value) expected_type;
      if b : bool then Ok (found ++ [pattern]) else Ok found
    else if obj_eq actual_value expected_type then
      Ok (found ++ [pattern])
    else if instance_of expected_type Tdict && value_instance actual_value Tdict then
      b ← py_in "faultstring" actual_value;
      if b : bool then Ok (found ++ [pattern]) else Ok found
    else Ok found
  else Ok found.

(** The loop over [self.error_patterns.items()]. *)
Fixpoint check_loop (items : list (string * pyobj))
    (response_data : gmap string value) (found : list string)
    : result (list string) :=
  match items with
  | [] => Ok found
  | (pattern, expected_type) :: rest =>
      found' ← check_item response_data found pattern expected_type;
      check_loop rest response_data found'
  end.

(** [check_response]: the loop from [found = []], then
    [self.found_patterns.update(found)], then [return found]. *)
Definition check_response (self : APIBingo) (response_data : gmap string value)
    : result (list string * APIBingo) :=
  found ← check_loop (error_patterns self) response_data [];
  Ok (found,
      {| error_patterns := error_patterns self;
         found_patterns := found_patterns self ∪ list_to_set found |}).

(** [get_score] and [is_bingo] assign nothing: they hand [self] back as it
    came. *)
Definition get_score (self : APIBingo) : result (Z * APIBingo) :=
  Ok (Z.of_nat (size (found_patterns self)), self).

Definition is_bingo (self : APIBingo) : result (bool * APIBingo) :=
  '(score, self) ← get_score self;
  Ok (bool_decide (score >= 5), self).

(** The loop of [main] without its printing: the responses go, in order,
    through [check_response] of one object. *)
Fixpoint play (self : APIBingo) (responses : list (gmap string value))
    : result (list (list string) * APIBingo) :=
  match responses with
  | [] => Ok ([], self)
  | response :: rest =>
      '(found, self) ← check_response self response;
      '(founds, self) ← play self rest;
      Ok (found :: founds, self)
  end.

(** [sample_responses] of [main]. *)
Definition sample_responses : list (gmap string value) := [
  {[ "error" := VStr "Invalid token"; "code" := VInt 401 ]};
  {[ "message" := VStr "Not found"; "success" := VBool false ]};
  {[ "err" := VStr "Database timeout"; "trace" := VStr "java.lang..." ]};
  {[ "status" := VStr "error"; "details" := VStr "Missing parameter" ]};
  {[ "fault" := VDict {[ "faultstring" := VStr "Rate limit exceeded" ]} ]};
  {[ "result" := VStr "failure"; "data" := VNone ]}
].

(** ** Vocabulary of the statements *)

(** The keys of the table of [__init__], in its order. *)
Definition names : list string := (error_patterns __init__).*1.

(** An object made by [__init__] whose accumulator has grown to [fp]. *)
Definition with_found (fp : gset string) : APIBingo :=
  {| error_patterns := error_patterns __init__; found_patterns := fp |}.

(** [check_response] on [r] returns a list that holds [name]. *)
Definition reports (self : APIBingo) (r : gmap string value) (name : string) : Prop :=
  ∃ found self', check_response self r = Ok (found, self') ∧ name ∈ found.

(** What one turn of the loop comes to, as a test on the item: the key is
    there, and the value is an instance of the class, or equal to the
    object, or both are dicts and the value has the key [faultstring].
    [check_item_spec] proves the loop body equal to it. *)
Definition item_matches (r : gmap string value) (it : string * pyobj) : bool :=
  match r !! it.1 with
  | None => false
  | Some v =>
      match it.2 with
      | OType t => value_instance v t
      | OValue e =>
          py_eq v e ||
          match e, v with
          | VDict _, VDict m => bool_decide ("faultstring" ∈ dom m)
          | _, _ => false
          end
      end
  end.

Definition matched (r : gmap string value) (items : list (string * pyobj)) : list string :=
  (filter (λ it, item_matches r it) items).*1.

(** The reading of the four string patterns as a check of the kind of the
    value: any string under the key is reported. *)
Definition any_string_reported (name : string) : Prop :=
  ∀ fp r, reports (with_found fp) r name ↔ ∃ s, r !! name = Some (VStr s).

(** The four responses of the threshold scenario. *)
Definition four_strings : list (gmap string value) := [
  {[ "error" := VStr "a" ]}; {[ "err" := VStr "b" ]};
  {[ "message" := VStr "c" ]}; {[ "error_message" := VStr "d" ]}
].

(** A call of one of the three methods, its answer, and a sequence of
    calls on one object. *)
Inductive call :=
  | CheckResponse (r : gmap string value)
  | GetScore
  | IsBingo.

Inductive answer :=
  | Found (found : list string)
  | Score (n : Z)
  | Bingo (b : bool).

Definition invoke (self : APIBingo) (c : call) : result (answer * APIBingo) :=
  match c with
  | CheckResponse r =>
      '(found, self) ← check_response self r; Ok (Found found, self)
  | GetScore => '(n, self) ← get_score self; Ok (Score n, self)
  | IsBingo => '(b, self) ← is_bingo self; Ok (Bingo b, self)
  end.

Fixpoint session (self : APIBingo) (calls : list call)
    : result (list answer * APIBingo) :=
  match calls with
  | [] => Ok ([], self)
  | c :: rest =>
      '(a, self) ← invoke self c;
      '(answers, self) ← session self rest;
      Ok (a :: answers, self)
  end.

Definition is_check (c : call) : bool :=
  match c with CheckResponse _ => true | _ => false end.

Definition is_found (a : answer) : bool :=
  match a with Found _ => true | _ => false end.

(** ** Printing *)

(** Standard output is the list of the texts [print] was called with, in
    order; [print] itself ends each with a newline.  [newline] is the
    character the source writes as a backslash followed by [n]. *)
Definition newline : string :=
  String (Ascii.Ascii false true false true false false false false) "".

(** [sorted(s)] for a set of strings.  Python orders strings by code point,
    which on their UTF-8 bytes is the byte-wise order [String.le]; the
    order is total, so the sorted list does not depend on the algorithm. *)
Definition sorted (s : gset string) : list string :=
  merge_sort String.le (elements s).

(** [print_card]. *)
Definition print_card (self : APIBingo) : result (list string * APIBingo) :=
  let out := [newline +:+ "=== API BINGO CARD ==="; "Collected patterns:"] in
  let out :=
    out ++ ((λ pattern, "  ✓ " +:+ pattern) <$> sorted (found_patterns self)) in
  '(score, self) ← get_score self;
  let out := out ++ [newline +:+ "Score: " +:+ pretty score +:+ "/12"] in
  '(bingo, self) ← is_bingo self;
  if bingo : bool
  then Ok (out ++ ["🎉 BINGO! You've mastered API inconsistency!"], self)
  else Ok (out ++ ["Keep trying! More inconsistent APIs await!"], self).

Section main.

(** [json.dumps] on a response.  Its text follows the insertion order of
    the dict, which a [gmap] does not keep: it is a parameter here. *)
Variable json_dumps : gmap string value → string.

(** The [for] loop of [main], with its printing, from the index [i] of
    [enumerate] on. *)
Fixpoint main_loop (bingo : APIBingo) (i : Z)
    (responses : list (gmap string value)) : result (list string * APIBingo) :=
  match responses with
  | [] => Ok ([], bingo)
  | response :: rest =>
      let out := ["Response " +:+ pretty i +:+ ": " +:+ json_dumps response] in
      '(found, bingo) ← check_response bingo response;
      let out :=
        if found is [] then out
        else out ++ ["Found: " +:+ String.concat ", " found] in
      let out := out ++ [""] in
      '(out', bingo) ← main_loop bingo (i + 1) rest;
      Ok (out ++ out', bingo)
  end.

(** [main]: the text it prints. *)
Definition main : result (list string) :=
  let bingo := __init__ in
  let out := ["Playing API Response Bingo!" +:+ newline] in
  '(out1, bingo) ← main_loop bingo 1 sample_responses;
  '(out2, bingo) ← print_card bingo;
  Ok (out ++ out1 ++ out2).

End main.

(** A response that holds, under each key of the table of [__init__], the
    object the table has for it. *)
Definition full_response : gmap string value :=
  {[ "error" := VStr "message"; "error_message" := VStr "string";
     "err" := VStr "msg"; "message" := VStr "error";
     "status" := VStr "error"; "result" := VStr "failure";
     "success" := VBool false; "code" := VInt 500; "data" := VNone;
     "details" := VStr ""; "trace" := VStr "stack";
     "fault" := VDict {[ "faultstring" := VStr "string" ]} ]}.

(** * Properties *)

(** ** The loop never raises *)

Section loop.
Context (r : gmap string value).

#[local] Arguments py_eq : simpl never.

Lemma check_item_spec found pattern expected_type :
  check_item r found pattern expected_type =
  Ok (if item_matches r (pattern, expected_type)
      then found ++ [pattern] else found).
Proof.
  unfold check_item, item_matches, dict_contains, dict_getitem; simpl.
  destruct (r !! pattern) as [v|] eqn:Hv.
  - rewrite bool_decide_eq_true_2 by (apply elem_of_dom; eauto).
    destruct expected_type as [t|e]; simpl.
    + by destruct (value_instance v t).
    + destruct (py_eq v e); [done|].
      destruct e, v; simpl; try done.
      unfold dict_contains. by case_bool_decide.
  - by rewrite bool_decide_eq_false_2 by (by apply not_elem_of_dom).
Qed.

Lemma check_loop_spec items found :
  check_loop items r found = Ok (found ++ matched r items).
Proof.
  revert found. induction items as [|[p o] items IH]; intros found; simpl.
  - by rewrite app_nil_r.
  - rewrite check_item_spec. simpl. rewrite IH. unfold matched.
    destruct (item_matches r (p, o)) eqn:Hm.
    + rewrite filter_cons_True by (by rewrite Hm).
      by rewrite <- app_assoc.
    + rewrite filter_cons_False; [done|]. simpl. rewrite Hm. by intros [].
Qed.
End loop.

Lemma check_response_spec self r :
  check_response self r =
  Ok (matched r (error_patterns self),
      {| error_patterns := error_patterns self;
         found_patterns :=
           found_patterns self ∪ list_to_set (matched r (error_patterns self)) |}).
Proof. unfold check_response. by rewrite check_loop_spec. Qed.

(** ** What the returned list holds *)

Lemma elem_of_matched r items n :
  n ∈ matched r items ↔ ∃ o, (n, o) ∈ items ∧ item_matches r (n, o) = true.
Proof.
  unfold matched. rewrite list_elem_of_fmap. split.
  - intros [[n' o] [-> [Hm Hin]%list_elem_of_filter]]. exists o. split; [done|].
    by apply Is_true_true.
  - intros (o & Hin & Hm). exists (n, o). split; [done|].
    apply list_elem_of_filter. split; [|done]. by apply Is_true_true.
Qed.

Lemma matched_sublist r items : sublist (matched r items) items.*1.
Proof. unfold matched. apply fmap_sublist, sublist_filter. Qed.

Lemma matched_in_dom r items n : n ∈ matched r items → n ∈ dom r.
Proof.
  intros (o & _ & Hm)%elem_of_matched. unfold item_matches in Hm. simpl in Hm.
  apply elem_of_dom. by destruct (r !! n).
Qed.

Lemma reports_spec self r n :
  reports self r n ↔
  ∃ o, (n, o) ∈ error_patterns self ∧ item_matches r (n, o) = true.
Proof.
  unfold reports. rewrite check_response_spec, <- elem_of_matched. split.
  - by intros (found & self' & [= <- _] & Hin).
  - intros Hin. eauto.
Qed.

(** Each key of the table of [__init__] has one object. *)

Lemma NoDup_fst_functional {A B} (l : list (A * B)) x y1 y2 :
  NoDup l.*1 → (x, y1) ∈ l → (x, y2) ∈ l → y1 = y2.
Proof.
  induction l as [|[a b] l IH]; csimpl; [by intros _ ?%elem_of_nil|].
  intros [Hnotin Hnodup]%NoDup_cons [Heq1|Hin1]%elem_of_cons [Heq2|Hin2]%elem_of_cons.
  - congruence.
  - injection Heq1 as -> ->. destruct Hnotin.
    apply list_elem_of_fmap. by exists (a, y2).
  - injection Heq2 as -> ->. destruct Hnotin.
    apply list_elem_of_fmap. by exists (a, y1).
  - by apply IH.
Qed.

Lemma names_NoDup : NoDup names.
Proof. unfold names, __init__; simpl. apply (bool_decide_unpack _). by vm_compute. Qed.

Lemma names_length : length names = 12%nat.
Proof. reflexivity. Qed.

(** No object of the table is a class: the [isinstance(expected_type, type)]
    branch of the loop is not taken for any of the 12 patterns. *)
Lemma table_has_no_class n o :
  (n, o) ∈ error_patterns __init__ → instance_of o Ttype = false.
Proof.
  revert n o.
  assert (Forall (λ it, instance_of it.2 Ttype = false) (error_patterns __init__))
    as Hall by (repeat constructor).
  intros n o Hin. by apply (proj1 (Forall_forall _ _) Hall (n, o)).
Qed.

Ltac in_table :=
  repeat first [apply list_elem_of_here | apply list_elem_of_further].

Lemma reports_init fp r n o :
  (n, o) ∈ error_patterns __init__ →
  reports (with_found fp) r n ↔ item_matches r (n, o) = true.
Proof.
  intros Hin. rewrite reports_spec. simpl. split.
  - intros (o' & Hin' & Hm).
    by rewrite (NoDup_fst_functional _ _ _ _ names_NoDup Hin Hin').
  - intros Hm. by exists o.
Qed.

Lemma item_matches_value r n e :
  item_matches r (n, OValue e) = true ↔
  ∃ v, r !! n = Some v ∧
       (py_eq v e = true ∨
        ∃ m0 m, e = VDict m0 ∧ v = VDict m ∧ "faultstring" ∈ dom m).
Proof.
  unfold item_matches; simpl. destruct (r !! n) as [v|]; [|naive_solver].
  rewrite orb_true_iff. split.
  - intros [Heq|Hd]; exists v; (split; [done|]); [by left|right].
    destruct e; try done. destruct v; try done.
    apply bool_decide_eq_true in Hd. eauto.
  - intros (? & [= <-] & [Heq|(m0 & m & -> & -> & Hin)]); [by left|right].
    by apply bool_decide_eq_true.
Qed.

(** ** Facts about [==] *)

Lemma py_eq_str v s : py_eq v (VStr s) = true ↔ v = VStr s.
Proof.
  destruct v; simpl; try (split; [done|by intros [=]]);
    try (destruct b; split; [done|by intros [=]]).
  rewrite bool_decide_eq_true. split; congruence.
Qed.

Lemma py_eq_none v : py_eq v VNone = true ↔ v = VNone.
Proof. destruct v; simpl; try (split; [done|by intros [=]]); by destruct b. Qed.

Lemma signed_nonzero s m : signed s m ≠ 0.
Proof. by destruct s. Qed.

Lemma scaled_eq_spec a ea b eb :
  scaled_eq a ea b eb = true ↔
  a * 2 ^ (ea - Z.min ea eb) = b * 2 ^ (eb - Z.min ea eb).
Proof. unfold scaled_eq. apply Z.eqb_eq. Qed.

Lemma float_eq_int_zero f :
  float_eq_int f 0 = true ↔ ∃ s, f = S754_zero s.
Proof.
  destruct f as [s|s| |s m e]; simpl; try (split; [done|by intros [? [=]]]).
  - split; eauto.
  - rewrite scaled_eq_spec. split; [|by intros [? [=]]].
    intros Heq. exfalso.
    assert (2 ^ (e - Z.min e 0) ≠ 0) by (apply Z.pow_nonzero; lia).
    pose proof (signed_nonzero s m). nia.
Qed.

Lemma py_eq_number v n :
  py_eq v (VInt n) = true ↔
  (∃ b, v = VBool b ∧ Z.b2z b = n) ∨ v = VInt n ∨
  ∃ f, v = VFloat f ∧ float_eq_int f n = true.
Proof.
  destruct v as [|b|z|f|s|l|m]; cbn [py_eq as_number number_eq];
    try (split; [done|by intros [[? [[=] _]]|[[=]|[? [[=] _]]]]]).
  - rewrite Z.eqb_eq. split; [eauto|].
    by intros [[? [[= <-] ?]]|[[=]|[? [[=] _]]]].
  - rewrite Z.eqb_eq. split; [intros ->; eauto|].
    by intros [[? [[=] _]]|[[= <-]|[? [[=] _]]]].
  - split; [eauto|]. by intros [[? [[=] _]]|[[=]|[? [[= <-] ?]]]].
Qed.

Lemma py_eq_false v :
  py_eq v (VBool false) = true ↔
  v = VBool false ∨ v = VInt 0 ∨ ∃ s, v = VFloat (S754_zero s).
Proof.
  replace (py_eq v (VBool false)) with (py_eq v (VInt 0)) by (by destruct v).
  rewrite py_eq_number. split.
  - intros [[[] [-> [=]]]|[->|[f [-> [s ->]%float_eq_int_zero]]]]; eauto.
  - intros [->|[->|[s ->]]]; [left; by exists false|by right; left|].
    right; right. eexists. split; [done|]. apply float_eq_int_zero. eauto.
Qed.

Lemma py_eq_int v n :
  n ≠ 0 → n ≠ 1 →
  py_eq v (VInt n) = true ↔
  v = VInt n ∨ ∃ f, v = VFloat f ∧ float_eq_int f n = true.
Proof.
  intros H0 H1. rewrite py_eq_number. split; [|by right].
  intros [[[] [_ Hb]]|H]; [by destruct H1|by destruct H0|done].
Qed.

Lemma all_true_spec (m : gmap string bool) :
  all_true m = true ↔ ∀ k b, m !! k = Some b → b = true.
Proof.
  unfold all_true. rewrite map_fold_foldr.
  transitivity (Forall (λ kb, kb.2 = true) (map_to_list m)).
  - induction (map_to_list m) as [|[k b] l IH]; simpl.
    + split; [by constructor|done].
    + rewrite Forall_cons, andb_true_iff, IH. done.
  - rewrite Forall_forall. split.
    + intros H k b Hk. by apply (H (k, b)), elem_of_map_to_list.
    + intros H [k b] Hk. by apply (H k), elem_of_map_to_list.
Qed.

Lemma py_eq_dict v m0 :
  py_eq v (VDict m0) = true →
  ∃ m, v = VDict m ∧ ∀ k, k ∈ dom m0 → k ∈ dom m.
Proof.
  destruct v as [|b|z|f|s|l|m]; simpl; try done.
  intros Hall. exists m. split; [done|]. intros k [x0 Hx0]%elem_of_dom.
  apply elem_of_dom. destruct (m !! k) as [x|] eqn:Hx; [by eexists|].
  rewrite all_true_spec in Hall. specialize (Hall k false).
  rewrite lookup_merge, Hx, Hx0 in Hall. simpl in Hall. by discriminate Hall.
Qed.

(** ** Patterns whose object is not a dict: plain [==] *)

Lemma reports_literal fp r n e :
  (n, OValue e) ∈ error_patterns __init__ →
  (∀ m0, e ≠ VDict m0) →
  reports (with_found fp) r n ↔ ∃ v, r !! n = Some v ∧ py_eq v e = true.
Proof.
  intros Hin Hnd. rewrite (reports_init fp r n _ Hin), item_matches_value.
  split.
  - intros (v & Hv & [Heq|(m0 & m & -> & _)]); [eauto|by destruct (Hnd m0)].
  - intros (v & Hv & Heq). eauto.
Qed.

Lemma reports_str fp r n s :
  (n, OValue (VStr s)) ∈ error_patterns __init__ →
  reports (with_found fp) r n ↔ r !! n = Some (VStr s).
Proof.
  intros Hin. rewrite (reports_literal fp r n _ Hin) by done. split.
  - by intros (v & Hv & ->%py_eq_str).
  - intros Hv. exists (VStr s). split; [done|]. by apply py_eq_str.
Qed.

Lemma String_cons_neq c s : String c s ≠ s.
Proof.
  revert c. induction s as [|c' s IH]; intros c; [done|].
  intros [= _ Hs]. by apply (IH c').
Qed.

Lemma not_any_string name lit :
  (name, OValue (VStr lit)) ∈ error_patterns __init__ →
  ¬ any_string_reported name.
Proof.
  intros Hin Hany.
  destruct (Hany ∅ {[ name := VStr (String (Ascii.ascii_of_nat 33) lit) ]}) as [_ Hrep].
  apply (reports_str _ _ _ _ Hin) in Hrep.
  - rewrite lookup_singleton_eq in Hrep. injection Hrep as Hrep.
    by apply String_cons_neq in Hrep.
  - eexists. apply lookup_singleton_eq.
Qed.

(** C1: the code at the failing inputs.  Each of the four responses holds a
    string under one of the keys [error], [error_message], [err],
    [message], and [check_response] returns the empty list for each: the
    cell of the table holds a string, not the class [str], so the
    [isinstance] branch written for it is not taken ([table_has_no_class])
    and the value is compared with [==].  Hence none of the four keys is
    reported for every string value. *)
Theorem C1_any_string_fails_on_code :
  ({[ "error" := VStr "Invalid token" ]} : gmap string value) !! "error"
    = Some (VStr "Invalid token") ∧
  check_response __init__ {[ "error" := VStr "Invalid token" ]} = Ok ([], __init__) ∧
  check_response __init__ {[ "error_message" := VStr "d" ]} = Ok ([], __init__) ∧
  check_response __init__ {[ "err" := VStr "Database timeout" ]} = Ok ([], __init__) ∧
  check_response __init__ {[ "message" := VStr "Not found" ]} = Ok ([], __init__) ∧
  ¬ any_string_reported "error" ∧
  ¬ any_string_reported "error_message" ∧
  ¬ any_string_reported "err" ∧
  ¬ any_string_reported "message".
Proof.
  split; [done|]. do 4 (split; [vm_compute; reflexivity|]).
  repeat split; eapply not_any_string; in_table.
Qed.

(** C2, as the claim states it, fails: [0 == False] holds in Python, so the
    response [{"success": 0}] is reported under [success]. *)
Lemma C2_zero_matches_success_counterexample :
  py_eq (VInt 0) (VBool false) = true ∧
  check_response __init__ {[ "success" := VInt 0 ]}
    = Ok (["success"], with_found {[ "success" ]}).
Proof. split; vm_compute; reflexivity. Qed.

(** C2, amended: the comparison is Python's [==].  It tells strings, [None]
    and numbers apart, and it does not tell [False] from a number of value
    zero: [{"success": 0}] and [{"success": 0.0}] are reported under
    [success] as [{"success": false}] is, and nothing else is; [code] is
    reported for the int [500] and for a float of value 500, never for the
    string ["500"] or a bool; [data] for [None] alone; [status], [result],
    [details] and [trace] for the very string of the table alone. *)
Theorem C2_literals_compare_with_python_eq (fp : gset string) (r : gmap string value) :
  (reports (with_found fp) r "success" ↔
     r !! "success" = Some (VBool false) ∨ r !! "success" = Some (VInt 0) ∨
     ∃ s, r !! "success" = Some (VFloat (S754_zero s))) ∧
  (reports (with_found fp) r "code" ↔
     r !! "code" = Some (VInt 500) ∨
     ∃ f, r !! "code" = Some (VFloat f) ∧ float_eq_int f 500 = true) ∧
  (reports (with_found fp) r "data" ↔ r !! "data" = Some VNone) ∧
  (reports (with_found fp) r "status" ↔ r !! "status" = Some (VStr "error")) ∧
  (reports (with_found fp) r "result" ↔ r !! "result" = Some (VStr "failure")) ∧
  (reports (with_found fp) r "details" ↔ r !! "details" = Some (VStr "")) ∧
  (reports (with_found fp) r "trace" ↔ r !! "trace" = Some (VStr "stack")) ∧
  reports (with_found fp) {[ "success" := VBool false ]} "success" ∧
  reports (with_found fp) {[ "success" := VInt 0 ]} "success" ∧
  reports (with_found fp) {[ "code" := VFloat (S754_finite false 125 2) ]} "code" ∧
  (reports (with_found fp) {[ "code" := VStr "500" ]} "code" ↔ False).
Proof.
  assert (Hsuccess : reports (with_found fp) r "success" ↔
     r !! "success" = Some (VBool false) ∨ r !! "success" = Some (VInt 0) ∨
     ∃ s, r !! "success" = Some (VFloat (S754_zero s))).
  { rewrite (reports_literal fp r "success" (VBool false)) by (done || in_table).
    split.
    - intros (v & Hv & [->|[->|[s ->]]]%py_eq_false); eauto.
    - intros [Hv|[Hv|[s Hv]]]; eexists; (split; [exact Hv|]);
        apply py_eq_false; eauto. }
  assert (Hcode : ∀ r', reports (with_found fp) r' "code" ↔
     r' !! "code" = Some (VInt 500) ∨
     ∃ f, r' !! "code" = Some (VFloat f) ∧ float_eq_int f 500 = true).
  { intros r'.
    rewrite (reports_literal fp r' "code" (VInt 500)) by (done || in_table).
    split.
    - intros (v & Hv & [->|(f & -> & Hf)]%py_eq_int); eauto.
    - intros [Hv|(f & Hv & Hf)]; eexists; (split; [exact Hv|]);
        apply py_eq_int; eauto. }
  split; [done|]. split; [done|]. split.
  { rewrite (reports_literal fp r "data" VNone) by (done || in_table). split.
    - by intros (v & Hv & ->%py_eq_none).
    - intros Hv. by exists VNone. }
  do 4 (split; [apply reports_str; in_table|]).
  split; [|split; [|split]].
  - apply (reports_literal fp _ "success" (VBool false)); [in_table|done|].
    eexists. by rewrite lookup_singleton_eq.
  - apply (reports_literal fp _ "success" (VBool false)); [in_table|done|].
    eexists. by rewrite lookup_singleton_eq.
  - apply Hcode. right. eexists. by rewrite lookup_singleton_eq.
  - rewrite Hcode, lookup_singleton_eq. split; [|done].
    by intros [[=]|(f & [=] & _)].
Qed.

(** ** The pattern [fault] *)

(** C6: [check_response] reports [fault] exactly when the response has the
    key [fault], the value under it is a dict, and that dict has the key
    [faultstring], whatever is stored under it.  So
    [{"fault": {"faultstring": "x"}}] is reported, and
    [{"fault": {"other": "x"}}] and [{"fault": "not a mapping"}] are not. *)
Theorem C6_nested_fault (fp : gset string) (r : gmap string value) :
  (reports (with_found fp) r "fault" ↔
     ∃ m, r !! "fault" = Some (VDict m) ∧ "faultstring" ∈ dom m) ∧
  reports (with_found fp)
    {[ "fault" := VDict {[ "faultstring" := VStr "x" ]} ]} "fault" ∧
  (reports (with_found fp)
    {[ "fault" := VDict {[ "other" := VStr "x" ]} ]} "fault" ↔ False) ∧
  (reports (with_found fp) {[ "fault" := VStr "not a mapping" ]} "fault" ↔ False).
Proof.
  assert (Hfault : ∀ r', reports (with_found fp) r' "fault" ↔
     ∃ m, r' !! "fault" = Some (VDict m) ∧ "faultstring" ∈ dom m).
  { intros r'.
    rewrite (reports_init fp r' "fault"
               (OValue (VDict {[ "faultstring" := VStr "string" ]})))
      by in_table.
    rewrite item_matches_value. split.
    - intros (v & Hv & [(m & -> & Hdom)%py_eq_dict|(m0 & m & _ & -> & Hin)]).
      + exists m. split; [done|]. apply Hdom. by rewrite dom_singleton_L, elem_of_singleton.
      + by exists m.
    - intros (m & Hv & Hin). exists (VDict m). split; [done|]. right. eauto. }
  split; [done|]. split; [|split].
  - apply Hfault. eexists. rewrite lookup_singleton_eq. split; [done|].
    by rewrite dom_singleton_L, elem_of_singleton.
  - rewrite Hfault, lookup_singleton_eq. split; [|done].
    intros (m & [= <-] & Hin).
    by rewrite dom_singleton_L, elem_of_singleton in Hin.
  - rewrite Hfault, lookup_singleton_eq. split; [|done].
    by intros (m & [=] & _).
Qed.

(** ** Totality *)

(** C5: [check_response] returns on every response, in every state of the
    object (whatever the table holds): no [KeyError], no [TypeError].  On the
    empty response it returns the empty list and leaves the object as it
    was; in general the list holds the keys of the table that match, and no
    other name. *)
Theorem C5_check_response_total (self : APIBingo) (r : gmap string value) :
  (∃ found self', check_response self r = Ok (found, self')) ∧
  check_response self ∅ = Ok ([], self) ∧
  (∀ e, check_response self r ≠ Raise e) ∧
  (∀ n, reports self r n ↔
        ∃ o, (n, o) ∈ error_patterns self ∧ item_matches r (n, o) = true).
Proof.
  split; [rewrite check_response_spec; eauto|]. split; [|split].
  - rewrite check_response_spec. destruct self as [items fp]. simpl.
    assert (matched ∅ items = []) as ->.
    { apply elem_of_nil_inv. intros n Hn%matched_in_dom.
      by rewrite dom_empty_L in Hn. }
    simpl. by rewrite union_empty_r_L.
  - intros e. by rewrite check_response_spec.
  - intros n. apply reports_spec.
Qed.

(** ** Runs of [main]'s loop *)

(** C3, as the claim states it, fails: after the six sample responses
    neither [trace] nor [details] is among the patterns found, which the
    claim lists as matched, and the score is not 9. *)
Lemma C3_sample_score_counterexample :
  ∃ founds self',
    play __init__ sample_responses = Ok (founds, self') ∧
    (("trace" ∈ found_patterns self') ↔ False) ∧
    (("details" ∈ found_patterns self') ↔ False) ∧
    get_score self' ≠ Ok (9, self').
Proof.
  exists [ []; ["success"]; []; ["status"]; ["fault"]; ["result"; "data"] ],
    (with_found {[ "success"; "status"; "fault"; "result"; "data" ]}).
  split; [vm_compute; reflexivity|].
  split; [split; [|done]; apply (bool_decide_unpack _); vm_compute; exact I|].
  split; [split; [|done]; apply (bool_decide_unpack _); vm_compute; exact I|].
  vm_compute. intros [= ?].
Qed.

(** C3, amended: the six sample responses, fed in order to one fresh
    object, all return.  The second reports [success], the fourth reports
    [status] and not [details], the fifth returns [["fault"]], the sixth
    [["result", "data"]]; the first does not report [code] and the third
    does not report [trace].  The patterns found at the end include
    success, status, fault, result and data and lie within these five and
    error, message, err; so the score is at least 5 and at most 8, and
    [is_bingo] is true.  Nothing is said of [error], [message] and [err]. *)
Theorem C3_sample_run :
  ∃ f1 f2 f3 f4 f5 f6 self' n,
    play __init__ sample_responses = Ok ([f1; f2; f3; f4; f5; f6], self') ∧
    ("code" ∈ f1 ↔ False) ∧
    "success" ∈ f2 ∧
    ("trace" ∈ f3 ↔ False) ∧
    "status" ∈ f4 ∧ ("details" ∈ f4 ↔ False) ∧
    f5 = ["fault"] ∧
    f6 = ["result"; "data"] ∧
    {[ "success"; "status"; "fault"; "result"; "data" ]} ⊆ found_patterns self' ∧
    found_patterns self' ⊆
      {[ "success"; "status"; "fault"; "result"; "data";
         "error"; "message"; "err" ]} ∧
    get_score self' = Ok (n, self') ∧
    5 ≤ n ∧ n ≤ 8 ∧
    is_bingo self' = Ok (true, self').
Proof.
  exists [], ["success"], [], ["status"], ["fault"], ["result"; "data"],
    (with_found {[ "success"; "status"; "fault"; "result"; "data" ]}), 5.
  split; [vm_compute; reflexivity|].
  split; [split; [by intros ?%elem_of_nil|done]|].
  split; [apply list_elem_of_here|].
  split; [split; [by intros ?%elem_of_nil|done]|].
  split; [apply list_elem_of_here|].
  split; [split; [|done]; by intros [=]%list_elem_of_singleton|].
  split; [done|]. split; [done|].
  split; [apply (bool_decide_unpack _); vm_compute; exact I|].
  split; [apply (bool_decide_unpack _); vm_compute; exact I|].
  split; [vm_compute; reflexivity|].
  split; [lia|]. split; [lia|]. vm_compute. reflexivity.
Qed.

(** C4: the code at the failing input.  After the four calls with the
    values ["a"], ["b"], ["c"], ["d"] the score of a fresh object is 0, not
    4, and after the further call with [{"status": "error"}] it is 1, not
    5, and [is_bingo] is false: the four string values are compared with
    [==] against the strings of the table, as in C1. *)
Theorem C4_threshold_fails_on_code :
  play __init__ four_strings = Ok ([ []; []; []; [] ], __init__) ∧
  get_score __init__ = Ok (0, __init__) ∧
  is_bingo __init__ = Ok (false, __init__) ∧
  play __init__ (four_strings ++ [ {[ "status" := VStr "error" ]} ]) =
    Ok ([ []; []; []; []; ["status"] ], with_found {[ "status" ]}) ∧
  get_score (with_found {[ "status" ]}) = Ok (1, with_found {[ "status" ]}) ∧
  is_bingo (with_found {[ "status" ]}) = Ok (false, with_found {[ "status" ]}).
Proof. vm_compute. repeat split. Qed.

(** ** The accumulator *)

Lemma record_eta (self : APIBingo) :
  {| error_patterns := error_patterns self;
     found_patterns := found_patterns self |} = self.
Proof. by destruct self. Qed.

(** C7: in every state and for every response, a second [check_response]
    with the same response returns the list the first one returned and
    leaves the object as the first call left it, so [get_score] after the
    second call equals [get_score] after the first. *)
Theorem C7_idempotent_accumulation (self : APIBingo) (r : gmap string value) :
  ∃ found self1 self2 n,
    check_response self r = Ok (found, self1) ∧
    check_response self1 r = Ok (found, self2) ∧
    get_score self1 = Ok (n, self1) ∧
    get_score self2 = Ok (n, self2) ∧
    self2 = self1.
Proof.
  rewrite check_response_spec.
  set (found := matched r (error_patterns self)).
  set (self1 := {| error_patterns := error_patterns self;
                   found_patterns := found_patterns self ∪ list_to_set found |}).
  assert (Hagain : check_response self1 r = Ok (found, self1)).
  { rewrite check_response_spec. subst self1; simpl. fold found.
    do 2 f_equal. f_equal. set_solver. }
  exists found, self1, self1, (Z.of_nat (size (found_patterns self1))).
  by repeat split.
Qed.

Lemma play_snoc rs : ∀ self r founds self',
  play self rs = Ok (founds, self') →
  play self (rs ++ [r]) =
    '(found, self'') ← check_response self' r; Ok (founds ++ [found], self'').
Proof.
  induction rs as [|r0 rs IH]; intros self r founds self'; simpl.
  - intros [= <- <-]. by destruct (check_response self r) as [[??]|].
  - destruct (check_response self r0) as [[found0 self0]|]; simpl; [|done].
    destruct (play self0 rs) as [[founds0 self0']|] eqn:Hplay; simpl; [|done].
    intros [= <- <-]. rewrite (IH _ r _ _ Hplay).
    by destruct (check_response self0' r) as [[??]|].
Qed.

(** A run keeps the table and lets the accumulator grow, within the keys
    of the table. *)
Lemma play_inv self rs :
  ∃ founds fp,
    play self rs =
      Ok (founds, {| error_patterns := error_patterns self; found_patterns := fp |}) ∧
    found_patterns self ⊆ fp ∧
    fp ⊆ found_patterns self ∪ list_to_set (error_patterns self).*1.
Proof.
  induction rs as [|r rs (founds & fp & Hplay & Hlow & Hup)] using rev_ind.
  - exists [], (found_patterns self). rewrite record_eta.
    split; [done|]. set_solver.
  - rewrite (play_snoc _ _ r _ _ Hplay), check_response_spec.
    eexists _, _. split; [done|].
    cbn [error_patterns found_patterns]. split; [set_solver|].
    apply union_least; [done|]. intros n Hn%elem_of_list_to_set.
    apply elem_of_union_r, elem_of_list_to_set.
    eapply elem_of_sublist; [done|]. apply matched_sublist.
Qed.

Lemma play_init rs :
  ∃ founds fp,
    play __init__ rs = Ok (founds, with_found fp) ∧ fp ⊆ list_to_set names.
Proof.
  destruct (play_inv __init__ rs) as (founds & fp & Hplay & _ & Hup).
  exists founds, fp. split; [done|].
  etransitivity; [exact Hup|]. apply union_least; [|done].
  apply empty_subseteq.
Qed.

Lemma names_size : size (list_to_set names : gset string) = 12%nat.
Proof. rewrite size_list_to_set by apply names_NoDup. done. Qed.

(** C8: after any sequence of [check_response] calls on a fresh object the
    accumulator is within the 12 keys of the table; one more call never
    lowers the score; the score is always between 0 and 12. *)
Theorem C8_score_invariant (rs : list (gmap string value)) (r : gmap string value) :
  ∃ founds self1 found self2 n1 n2,
    play __init__ rs = Ok (founds, self1) ∧
    check_response self1 r = Ok (found, self2) ∧
    play __init__ (rs ++ [r]) = Ok (founds ++ [found], self2) ∧
    found_patterns self1 ⊆ list_to_set names ∧
    found_patterns self2 ⊆ list_to_set names ∧
    get_score self1 = Ok (n1, self1) ∧
    get_score self2 = Ok (n2, self2) ∧
    0 ≤ n1 ∧ n1 ≤ n2 ∧ n2 ≤ 12.
Proof.
  destruct (play_init rs) as (founds & fp1 & Hplay1 & Hsub1).
  destruct (play_init (rs ++ [r])) as (founds2 & fp2 & Hplay2 & Hsub2).
  pose proof Hplay2 as Hstep.
  rewrite (play_snoc _ _ r _ _ Hplay1), check_response_spec in Hstep.
  injection Hstep as <- Hfp2. cbn [with_found found_patterns] in Hfp2.
  exists founds, (with_found fp1), (matched r (error_patterns __init__)),
    (with_found fp2), (Z.of_nat (size fp1)), (Z.of_nat (size fp2)).
  split; [done|]. split.
  { rewrite check_response_spec. do 2 f_equal. unfold with_found.
    f_equal. exact Hfp2. }
  do 5 (split; [done|]). split; [lia|]. split.
  - apply inj_le, subseteq_size. rewrite <- Hfp2. set_solver.
  - apply subseteq_size in Hsub2. rewrite names_size in Hsub2. lia.
Qed.

(** C9: for an object holding the table of [__init__], the list
    [check_response] returns has no duplicates, each of its names is a key
    of the response and a key of the table, and the names come in the order
    of the table: the list is a subsequence of the table's keys. *)
Theorem C9_result_shape (fp : gset string) (r : gmap string value) :
  ∃ found self',
    check_response (with_found fp) r = Ok (found, self') ∧
    NoDup found ∧
    (∀ n, n ∈ found → n ∈ dom r ∧ n ∈ names) ∧
    sublist found names ∧
    found = (filter (λ it, item_matches r it) (error_patterns __init__)).*1.
Proof.
  rewrite check_response_spec. eexists _, _. split; [done|].
  change (error_patterns (with_found fp)) with (error_patterns __init__).
  pose proof (matched_sublist r (error_patterns __init__)) as Hsub.
  split; [|split; [|split]]; [| |done|done].
  - exact (sublist_NoDup _ _ names_NoDup Hsub).
  - intros n Hn. split; [by eapply matched_in_dom|].
    by eapply elem_of_sublist.
Qed.

(** ** Calls in any order *)

(** C10: [check_response] leaves the table as it was and makes the
    accumulator the union of its old value with the names it returns;
    [get_score] and [is_bingo] hand the object back unchanged, so in any
    sequence of calls the [get_score] and [is_bingo] calls can be left out
    without changing the answer of any [check_response] call or the final
    state, on which every later answer depends. *)
Theorem C10_frame (self : APIBingo) :
  (∀ r, ∃ found self',
     check_response self r = Ok (found, self') ∧
     error_patterns self' = error_patterns self ∧
     found_patterns self' = found_patterns self ∪ list_to_set found) ∧
  (∃ n, get_score self = Ok (n, self)) ∧
  (∃ b, is_bingo self = Ok (b, self)) ∧
  (∀ calls, ∃ answers self',
     session self calls = Ok (answers, self') ∧
     session self (filter (λ c, is_check c) calls) =
       Ok (filter (λ a, is_found a) answers, self')).
Proof.
  split; [|split; [|split]].
  - intros r. rewrite check_response_spec. by eexists _, _.
  - by eexists.
  - by eexists.
  - intros calls. revert self.
    induction calls as [|c calls IH]; intros self; [by eexists _, _|].
    destruct c as [r| |].
    + rewrite filter_cons_True by done. cbn [session invoke].
      rewrite check_response_spec.
      set (self1 := {| error_patterns := _; found_patterns := _ |}).
      destruct (IH self1) as (answers & self' & Hall & Hchecks).
      exists (Found (matched r (error_patterns self)) :: answers), self'.
      split; [cbn; by rewrite Hall|].
      rewrite filter_cons_True by done. cbn. by rewrite Hchecks.
    + rewrite filter_cons_False by (by intros []).
      destruct (IH self) as (answers & self' & Hall & Hchecks).
      exists (Score (Z.of_nat (size (found_patterns self))) :: answers), self'.
      split; [cbn; by rewrite Hall|].
      by rewrite filter_cons_False by (by intros []).
    + rewrite filter_cons_False by (by intros []).
      destruct (IH self) as (answers & self' & Hall & Hchecks).
      eexists (Bingo _ :: answers), self'.
      split; [cbn; by rewrite Hall|].
      by rewrite filter_cons_False by (by intros []).
Qed.

(** * Further properties *)

(** ** Keys outside the table *)

Lemma item_matches_agree r r' it :
  r !! it.1 = r' !! it.1 → item_matches r it = item_matches r' it.
Proof. unfold item_matches. by intros ->. Qed.

Lemma matched_agree r r' items :
  (∀ n, n ∈ items.*1 → r !! n = r' !! n) →
  matched r items = matched r' items.
Proof.
  unfold matched. induction items as [|it items IH]; intros Hagree; [done|].
  assert (item_matches r it = item_matches r' it) as Hit.
  { apply item_matches_agree, Hagree. csimpl. apply list_elem_of_here. }
  assert ((filter (λ it, item_matches r it) items).*1 =
          (filter (λ it, item_matches r' it) items).*1) as Hrest.
  { apply IH. intros n Hn. apply Hagree. csimpl. by apply list_elem_of_further. }
  rewrite !filter_cons, Hit. case_decide; csimpl; by rewrite Hrest.
Qed.

(** X1: [check_response] reads the response at the keys of the table only.
    Two responses that hold the same value (or both nothing) under every key
    of [error_patterns] get the same list and leave the same object. *)
Theorem X1_foreign_keys_ignored (self : APIBingo) (r r' : gmap string value) :
  (∀ n, n ∈ (error_patterns self).*1 → r !! n = r' !! n) →
  check_response self r = check_response self r'.
Proof.
  intros Hagree. rewrite !check_response_spec.
  by rewrite (matched_agree r r' _ Hagree).
Qed.

Lemma X1_foreign_keys_ignored_witness :
  (∀ n, n ∈ (error_patterns __init__).*1 →
     ({[ "status" := VStr "error"; "request_id" := VInt 7 ]}
        : gmap string value) !! n =
     ({[ "status" := VStr "error" ]} : gmap string value) !! n) ∧
  check_response __init__ {[ "status" := VStr "error"; "request_id" := VInt 7 ]} =
  check_response __init__ {[ "status" := VStr "error" ]}.
Proof.
  assert (∀ n, n ∈ (error_patterns __init__).*1 →
     ({[ "status" := VStr "error"; "request_id" := VInt 7 ]}
        : gmap string value) !! n =
     ({[ "status" := VStr "error" ]} : gmap string value) !! n) as Hagree.
  { intros n Hn. unfold __init__ in Hn. simpl in Hn.
    repeat (apply elem_of_cons in Hn as [->|Hn]; [vm_compute; reflexivity|]).
    by apply elem_of_nil in Hn. }
  split; [exact Hagree|].
  exact (X1_foreign_keys_ignored __init__ _ _ Hagree).
Defined.

(** ** Runs *)

Lemma play_spec rs : ∀ self,
  play self rs =
  Ok ((λ r, matched r (error_patterns self)) <$> rs,
      {| error_patterns := error_patterns self;
         found_patterns :=
           found_patterns self ∪
           list_to_set (mjoin ((λ r, matched r (error_patterns self)) <$> rs)) |}).
Proof.
  induction rs as [|r rs IH]; intros self.
  - simpl. by rewrite union_empty_r_L, record_eta.
  - cbn [play]. rewrite check_response_spec.
    cbn [mbind result_bind]. rewrite IH. cbn [mbind result_bind error_patterns found_patterns].
    do 3 f_equal. csimpl. rewrite list_to_set_app_L. set_solver.
Qed.

(** X2: a run answers every response as a call on the starting object
    would (the list returned does not depend on what was found before), it
    keeps the table, and it ends with the accumulator grown by exactly the
    names returned along the way. *)
Theorem X2_run_accumulates (self : APIBingo) (rs : list (gmap string value)) :
  ∃ founds self',
    play self rs = Ok (founds, self') ∧
    Forall2 (λ r found, ∃ self1, check_response self r = Ok (found, self1))
      rs founds ∧
    error_patterns self' = error_patterns self ∧
    found_patterns self' = found_patterns self ∪ list_to_set (mjoin founds).
Proof.
  rewrite play_spec. eexists _, _. split; [done|]. split; [|done].
  apply Forall2_fmap_r, Forall_Forall2_diag, Forall_forall. intros r _.
  rewrite check_response_spec. by eexists.
Qed.

(** X3: the order of the responses does not matter for the outcome: a run
    over a permutation of the responses ends in the same object (so the same
    score and the same card), and returns the same lists, permuted. *)
Theorem X3_order_irrelevant (self : APIBingo) (rs rs' : list (gmap string value)) :
  rs ≡ₚ rs' →
  ∃ founds founds' self',
    play self rs = Ok (founds, self') ∧
    play self rs' = Ok (founds', self') ∧
    founds ≡ₚ founds'.
Proof.
  intros Hperm. rewrite !play_spec.
  set (f := λ r : gmap string value, matched r (error_patterns self)).
  assert (list_to_set (mjoin (f <$> rs)) =@{gset string}
          list_to_set (mjoin (f <$> rs'))) as ->.
  { apply list_to_set_perm_L. by rewrite Hperm. }
  eexists _, _, _. split; [done|]. split; [done|]. by rewrite Hperm.
Qed.

Lemma X3_order_irrelevant_witness :
  [ ({[ "status" := VStr "error" ]} : gmap string value);
    {[ "data" := VNone ]} ] ≡ₚ
  [ {[ "data" := VNone ]}; {[ "status" := VStr "error" ]} ] ∧
  ∃ founds founds' self',
    play __init__ [ {[ "status" := VStr "error" ]}; {[ "data" := VNone ]} ]
      = Ok (founds, self') ∧
    play __init__ [ {[ "data" := VNone ]}; {[ "status" := VStr "error" ]} ]
      = Ok (founds', self') ∧
    founds ≡ₚ founds'.
Proof.
  split; [apply perm_swap|].
  apply (X3_order_irrelevant __init__), perm_swap.
Defined.

(** X11: what a run collects depends on which responses it is fed, not on
    how often or in what order.  If every response of one run also occurs in
    another run from the same object, the first run ends with an accumulator
    included in that of the second; so repeating responses changes nothing,
    and two runs over the same responses end with the same score. *)
Theorem X11_more_responses_more_found (self : APIBingo)
    (rs rs' : list (gmap string value)) :
  (∀ r, r ∈ rs → r ∈ rs') →
  ∃ founds founds' self1 self2 n1 n2,
    play self rs = Ok (founds, self1) ∧
    play self rs' = Ok (founds', self2) ∧
    found_patterns self1 ⊆ found_patterns self2 ∧
    get_score self1 = Ok (n1, self1) ∧ get_score self2 = Ok (n2, self2) ∧
    n1 ≤ n2.
Proof.
  intros Hsub. rewrite !play_spec. eexists _, _, _, _, _, _.
  split; [done|]. split; [done|]. cbn [found_patterns].
  set (f := λ r : gmap string value, matched r (error_patterns self)).
  assert (found_patterns self ∪ list_to_set (mjoin (f <$> rs)) ⊆
          found_patterns self ∪ list_to_set (mjoin (f <$> rs'))) as Hincl.
  { apply union_mono_l. intros n Hn%elem_of_list_to_set.
    apply elem_of_list_to_set.
    apply list_elem_of_join in Hn as (found & Hn & Hfound).
    apply list_elem_of_fmap in Hfound as (r & -> & Hr).
    apply list_elem_of_join. exists (f r). split; [done|].
    apply list_elem_of_fmap. exists r. split; [done|]. by apply Hsub. }
  split; [done|]. split; [done|]. split; [done|].
  by apply inj_le, subseteq_size.
Qed.

Lemma X11_more_responses_more_found_witness :
  let a : gmap string value := {[ "status" := VStr "error" ]} in
  (∀ r, r ∈ [a; a] → r ∈ [a]) ∧
  ∃ founds founds' self1 self2 n1 n2,
    play __init__ [a; a] = Ok (founds, self1) ∧
    play __init__ [a] = Ok (founds', self2) ∧
    found_patterns self1 ⊆ found_patterns self2 ∧
    get_score self1 = Ok (n1, self1) ∧ get_score self2 = Ok (n2, self2) ∧
    n1 ≤ n2.
Proof.
  intros a.
  assert (∀ r, r ∈ [a; a] → r ∈ [a]) as Hsub.
  { intros r Hr. apply elem_of_cons in Hr as [->|Hr]; [apply list_elem_of_here|].
    exact Hr. }
  split; [exact Hsub|].
  exact (X11_more_responses_more_found __init__ [a; a] [a] Hsub).
Defined.

(** X4: a bingo is never lost.  From any object, after any further run of
    [check_response] calls the score is at least what it was, and if
    [is_bingo] was true before the run it is true after it. *)
Theorem X4_bingo_is_kept (self : APIBingo) (rs : list (gmap string value)) :
  ∃ founds self' n n' b b',
    play self rs = Ok (founds, self') ∧
    get_score self = Ok (n, self) ∧ get_score self' = Ok (n', self') ∧
    is_bingo self = Ok (b, self) ∧ is_bingo self' = Ok (b', self') ∧
    n ≤ n' ∧ (b = true → b' = true).
Proof.
  rewrite play_spec. eexists _, _, _, _, _, _. split; [done|].
  do 4 (split; [done|]). cbn [found_patterns].
  assert (Z.of_nat (size (found_patterns self)) ≤
          Z.of_nat (size (found_patterns self ∪ list_to_set (mjoin
            ((λ r, matched r (error_patterns self)) <$> rs))))) as Hle.
  { apply inj_le, subseteq_size, union_subseteq_l. }
  split; [done|]. rewrite !bool_decide_eq_true. lia.
Qed.

(** ** The patterns are independent *)

Lemma item_matches_restrict (S : gset string) n e :
  full_response !! n = Some e → py_eq e e = true →
  item_matches (filter (λ kv, kv.1 ∈ S) full_response) (n, OValue e) =
  bool_decide (n ∈ S).
Proof.
  intros Hn Hrefl. unfold item_matches. cbn [fst snd]. case_bool_decide as HS.
  - rewrite (map_lookup_filter_Some_2 _ _ _ _ Hn) by done. by rewrite Hrefl.
  - rewrite map_lookup_filter_None_2; [done|].
    right. by intros x _.
Qed.

Lemma matched_restrict (S : gset string) items :
  Forall (λ it, ∃ e, it.2 = OValue e ∧ full_response !! it.1 = Some e ∧
                     py_eq e e = true) items →
  matched (filter (λ kv, kv.1 ∈ S) full_response) items =
  filter (λ n, n ∈ S) items.*1.
Proof.
  unfold matched. induction 1 as [|[n o] items (e & Ho & Hn & Hrefl) _ IH]; [done|].
  simpl in Ho, Hn. subst o. csimpl. rewrite !filter_cons.
  rewrite (item_matches_restrict S n e Hn Hrefl).
  destruct (decide (n ∈ S)) as [HS|HS].
  - rewrite bool_decide_eq_true_2 by done.
    rewrite decide_True by done. csimpl. by rewrite IH.
  - rewrite bool_decide_eq_false_2 by done.
    rewrite decide_False by (by intros []). done.
Qed.

Lemma filter_all {A} (P : A → Prop) `{!∀ x, Decision (P x)} (l : list A) :
  Forall P l → filter P l = l.
Proof.
  induction 1 as [|x l Hx _ IH]; [done|].
  by rewrite filter_cons_True, IH by done.
Qed.

(** X5: the twelve patterns can be hit in any combination, by one call.
    For every set [S] of names there is a response on which
    [check_response] returns exactly the keys of the table that are in [S],
    in table order; with all twelve keys in [S] one call on a fresh object
    gives the score 12, so the bound 12 is reached. *)
Theorem X5_any_combination (S : gset string) :
  ∃ r self',
    check_response __init__ r = Ok (filter (λ n, n ∈ S) names, self') ∧
    found_patterns self' = list_to_set (filter (λ n, n ∈ S) names) ∧
    (list_to_set names ⊆ S → get_score self' = Ok (12, self')).
Proof.
  exists (filter (λ kv, kv.1 ∈ S) full_response). eexists.
  change (check_response __init__) with (check_response (with_found ∅)).
  rewrite check_response_spec. cbn [with_found found_patterns error_patterns].
  rewrite matched_restrict, union_empty_l_L.
  - split; [done|]. cbn [found_patterns]. split; [done|].
    intros Hall. unfold get_score. cbn [found_patterns].
    assert (filter (λ n, n ∈ S) (error_patterns __init__).*1 = names) as ->.
    { apply filter_all, Forall_forall. intros n Hn.
      apply Hall. by apply elem_of_list_to_set. }
    by rewrite names_size.
  - unfold __init__. cbn [error_patterns].
    repeat (constructor;
      [eexists; split; [reflexivity|split; vm_compute; reflexivity]|]).
    constructor.
Qed.

(** ** A class in the table *)

(** X6: the [isinstance] branch.  For an object whose table has distinct
    keys (it is a dict) and holds a class under the key [n],
    [check_response] reports [n] exactly when the response has the key [n]
    and the value is an instance of the class; the content of the value is
    not compared. *)
Theorem X6_class_entry (self : APIBingo) (r : gmap string value)
    (n : string) (t : pytype) :
  NoDup (error_patterns self).*1 →
  (n, OType t) ∈ error_patterns self →
  reports self r n ↔ ∃ v, r !! n = Some v ∧ value_instance v t = true.
Proof.
  intros Hnodup Hin. rewrite reports_spec. split.
  - intros (o & Hin' & Hm).
    rewrite <- (NoDup_fst_functional _ _ _ _ Hnodup Hin Hin') in Hm.
    unfold item_matches in Hm. cbn [fst snd] in Hm.
    destruct (r !! n) as [v|]; [eauto|done].
  - intros (v & Hv & Hinst). exists (OType t). split; [done|].
    unfold item_matches. cbn [fst snd]. by rewrite Hv.
Qed.

Lemma X6_class_entry_witness :
  let self := {| error_patterns := [("error", OType Tstr); ("code", OType Tint)];
                 found_patterns := ∅ |} in
  let r : gmap string value :=
    {[ "error" := VStr "Invalid token"; "code" := VBool true ]} in
  NoDup (error_patterns self).*1 ∧
  ("code", OType Tint) ∈ error_patterns self ∧
  (reports self r "code" ↔
   ∃ v, r !! "code" = Some v ∧ value_instance v Tint = true).
Proof.
  intros self r.
  assert (NoDup (error_patterns self).*1) as Hnodup.
  { apply (bool_decide_unpack _). vm_compute. exact I. }
  assert (("code", OType Tint) ∈ error_patterns self) as Hin.
  { apply list_elem_of_further, list_elem_of_here. }
  split; [exact Hnodup|]. split; [exact Hin|].
  exact (X6_class_entry self r "code" Tint Hnodup Hin).
Defined.

(** ** How far one call can move the score *)

Lemma matched_shape (fp : gset string) (r : gmap string value) :
  let found := matched r (error_patterns (with_found fp)) in
  NoDup found ∧ (∀ n, n ∈ found → n ∈ dom r) ∧ sublist found names.
Proof.
  intros found. pose proof (matched_sublist r (error_patterns __init__)) as Hsub.
  split; [exact (sublist_NoDup _ _ names_NoDup Hsub)|]. split; [|done].
  intros n Hn. by eapply matched_in_dom.
Qed.

(** X7: one call raises the score by at most the number of names it returns,
    and it returns at most as many names as the response has keys, and at
    most 12: a response with fewer than five keys cannot take a fresh
    object to a bingo. *)
Theorem X7_step_bound (fp : gset string) (r : gmap string value) :
  ∃ found self' n n',
    check_response (with_found fp) r = Ok (found, self') ∧
    get_score (with_found fp) = Ok (n, with_found fp) ∧
    get_score self' = Ok (n', self') ∧
    n' - n ≤ Z.of_nat (length found) ∧
    (length found ≤ size (dom r))%nat ∧
    (length found ≤ 12)%nat.
Proof.
  destruct (matched_shape fp r) as (Hnodup & Hin & Hsub).
  rewrite check_response_spec.
  change (error_patterns (with_found fp)) with (error_patterns __init__).
  set (found := matched r (error_patterns __init__)) in *.
  eexists _, _, _, _. split; [done|]. split; [done|]. split; [done|].
  cbn [found_patterns with_found].
  assert (size (list_to_set found : gset string) = length found) as Hsize
    by by apply size_list_to_set.
  split; [|split].
  - rewrite size_union_alt.
    assert (size (list_to_set found ∖ fp) ≤ size (list_to_set found : gset string))%nat
      by (apply subseteq_size; set_solver).
    lia.
  - rewrite <- Hsize. apply subseteq_size. intros n Hn%elem_of_list_to_set.
    by apply Hin.
  - apply sublist_length in Hsub. by rewrite names_length in Hsub.
Qed.

(** ** The card *)

Lemma sorted_spec (s : gset string) :
  sorted s ≡ₚ elements s ∧ NoDup (sorted s) ∧
  (∀ p, p ∈ sorted s ↔ p ∈ s) ∧ StronglySorted String.le (sorted s).
Proof.
  unfold sorted.
  pose proof (merge_sort_Permutation String.le (elements s)) as Hperm.
  split; [done|]. split; [by rewrite Hperm; apply NoDup_elements|].
  split; [intros p; by rewrite Hperm, elem_of_elements|].
  apply (StronglySorted_merge_sort _).
Qed.

(** X8: [print_card] never raises and leaves the object as it was.  Between
    the two header texts and the score text it prints one ticked text for
    every collected pattern: each pattern once, none that was not collected,
    in ascending order; their number is the score shown before [/12].  The
    last text is the bingo text exactly when the score is at least 5. *)
Theorem X8_print_card (self : APIBingo) :
  ∃ listing n verdict,
    print_card self =
      Ok ([newline +:+ "=== API BINGO CARD ==="; "Collected patterns:"] ++
          ((λ pattern, "  ✓ " +:+ pattern) <$> listing) ++
          [newline +:+ "Score: " +:+ pretty n +:+ "/12"; verdict],
          self) ∧
    get_score self = Ok (n, self) ∧
    NoDup listing ∧
    (∀ p, p ∈ listing ↔ p ∈ found_patterns self) ∧
    StronglySorted String.le listing ∧
    Z.of_nat (length listing) = n ∧
    (verdict = "🎉 BINGO! You've mastered API inconsistency!" ↔ 5 ≤ n) ∧
    (verdict = "Keep trying! More inconsistent APIs await!" ↔ n < 5).
Proof.
  destruct (sorted_spec (found_patterns self)) as (Hperm & Hnodup & Hin & Hsorted).
  set (n := Z.of_nat (size (found_patterns self))).
  exists (sorted (found_patterns self)), n.
  assert (Z.of_nat (length (sorted (found_patterns self))) = n) as Hlen.
  { by rewrite Hperm. }
  unfold print_card, is_bingo, get_score. cbn [mbind result_bind]. fold n.
  case_bool_decide as Hn.
  - eexists. split; [by rewrite <- !app_assoc|]. do 5 (split; [done|]).
    split; split.
    + intros _. lia.
    + done.
    + intros [=].
    + intros ?. lia.
  - eexists. split; [by rewrite <- !app_assoc|]. do 5 (split; [done|]).
    split; split.
    + intros [=].
    + intros ?. lia.
    + intros _. lia.
    + done.
Qed.

(** ** The demonstration *)

(** X9: the printing loop of [main] and the plain run of [check_response]
    calls, for a [json.dumps] that returns a text on every response fed,
    whatever that text is and whatever index the loop starts from.  The
    loop ends in the object [play] ends in, and what it prints is fixed by
    the lists [play] returns: for the [k]-th response, in order, the text
    [Response i+k: ] followed by its rendering, then the text [Found: ]
    followed by the returned names joined by a comma and a space, exactly
    when the returned list is not empty, then an empty text.  So it prints
    two texts for every response and a third for those with a match. *)
Theorem X9_main_loop_is_a_run (json_dumps : gmap string value → string)
    (bingo : APIBingo) (i : Z) (responses : list (gmap string value)) :
  ∃ out founds bingo',
    main_loop json_dumps bingo i responses = Ok (out, bingo') ∧
    play bingo responses = Ok (founds, bingo') ∧
    length founds = length responses ∧
    out =
      mjoin (imap (λ k rf,
               ["Response " +:+ pretty (i + Z.of_nat k) +:+ ": " +:+
                  json_dumps rf.1] ++
               (if rf.2 is [] then []
                else ["Found: " +:+ String.concat ", " rf.2]) ++
               [""])
             (zip responses founds)) ∧
    length out =
      (2 * length responses + length (filter (λ found, found ≠ []) founds))%nat.
Proof.
  revert bingo i. induction responses as [|r rs IH]; intros bingo i.
  - by exists [], [], bingo.
  - cbn [main_loop play]. rewrite check_response_spec.
    cbn [mbind result_bind].
    set (bingo1 := {| error_patterns := _; found_patterns := _ |}).
    destruct (IH bingo1 (i + 1))
      as (out & founds & bingo' & -> & -> & Hfounds & Hout & Hlen).
    cbn [mbind result_bind]. eexists _, _, _. split; [done|]. split; [done|].
    split; [cbn [length]; by rewrite Hfounds|]. split.
    + cbn [zip zip_with]. rewrite imap_cons. cbn [mjoin list_join fst snd].
      rewrite Z.add_0_r. f_equal.
      * by destruct (matched r (error_patterns bingo)).
      * rewrite Hout. f_equal. apply imap_ext. intros k rf _. cbn.
        by replace (i + 1 + Z.of_nat k) with (i + Z.of_nat (S k)) by lia.
    + rewrite length_app, Hlen, filter_cons.
      destruct (matched r (error_patterns bingo)) as [|p found].
      * rewrite decide_False by (by intros []). cbn [length app]. lia.
      * rewrite decide_True by done. cbn [length app]. lia.
Qed.

(** X10: what [main] prints, for any [json.dumps]: the title, for each of
    the six sample responses its numbered text, the [Found:] text for the
    second, fourth, fifth and sixth only, and an empty text, then the card
    with the five patterns success, status, fault, result, data in
    ascending order, the score 5/12 and the bingo text. *)
Theorem X10_main_output (json_dumps : gmap string value → string) :
  main json_dumps = Ok [
    "Playing API Response Bingo!" +:+ newline;
    "Response 1: " +:+
      json_dumps {[ "error" := VStr "Invalid token"; "code" := VInt 401 ]};
    "";
    "Response 2: " +:+
      json_dumps {[ "message" := VStr "Not found"; "success" := VBool false ]};
    "Found: success";
    "";
    "Response 3: " +:+
      json_dumps {[ "err" := VStr "Database timeout";
                    "trace" := VStr "java.lang..." ]};
    "";
    "Response 4: " +:+
      json_dumps {[ "status" := VStr "error";
                    "details" := VStr "Missing parameter" ]};
    "Found: status";
    "";
    "Response 5: " +:+
      json_dumps {[ "fault" :=
        VDict {[ "faultstring" := VStr "Rate limit exceeded" ]} ]};
    "Found: fault";
    "";
    "Response 6: " +:+
      json_dumps {[ "result" := VStr "failure"; "data" := VNone ]};
    "Found: result, data";
    "";
    newline +:+ "=== API BINGO CARD ===";
    "Collected patterns:";
    "  ✓ data";
    "  ✓ fault";
    "  ✓ result";
    "  ✓ status";
    "  ✓ success";
    newline +:+ "Score: 5/12";
    "🎉 BINGO! You've mastered API inconsistency!"
  ].
Proof. vm_compute. reflexivity. Qed.
